(** * The accelerator pipeline: stage graph assembly

    A shallow embedding of [lib/pipeline.ts] of the package
    [@aws-accelerator/accelerator]: the constructor of [AcceleratorPipeline],
    which assembles the CodePipeline stages, and its private method
    [createToolkitStage], which builds one CodeBuild action per toolkit
    operation.

    TypeScript values are embedded as follows.
    - [string] is [string]; an optional property [x?: string] is
      [option string], [None] standing for [undefined].
    - [x ? a : b] and [if (x)] test JavaScript truthiness ([truthy]): an
      optional string is truthy when it is present and not empty.
    - [x ?? d] is [nullish]; a template literal [`${x}`] of an optional string
      is [template], which prints [undefined] as the nine letters.
    - an object literal used as a dictionary of environment variables is a
      [gmap string _]; spreading [...o] into a literal is a union in which
      the spread entries win.
    - [number] run orders and durations are [Z].
    - a call that may throw returns a [completion]; [pipeline.addStage]
      mutates the pipeline, here it returns the extended pipeline.
    - the construct library is not part of the sources. A construct whose
      class checks its properties when it is created (the bucket, the
      repositories, the pipeline, the projects, the CodeCommit actions) is
      created by [construct]: the library, an unknown [library] of the
      constructor, either refuses the call with an error or yields the
      construct with the properties it was given. So is each of the two
      look-ups of a child construct for the cfn_nag metadata. The roles, the
      artifacts, the CodeBuild actions and the manual approval only hold
      their properties and are record literals.

    The content of the cfn_nag metadata and the construct identifiers are
    left out: nothing below reads them. *)

From stdpp Require Import base option strings list gmap.
From Stdlib Require Import ZArith.

Local Open Scope string_scope.
Local Open Scope list_scope.
Local Open Scope Z_scope.

(** ** JavaScript corner cases used by the source *)

(** Truthiness of an optional string: [undefined] and the empty string are
    falsy. *)
Definition truthy (x : option string) : bool :=
  match x with
  | Some s => negb (String.eqb s "")
  | None => false
  end.

(** [x ?? d]: only [undefined] falls through to [d], the empty string does not. *)
Definition nullish (x : option string) (d : string) : string :=
  match x with
  | Some s => s
  | None => d
  end.

(** [`${x}`] for an optional string. *)
Definition template (x : option string) : string :=
  match x with
  | Some s => s
  | None => "undefined"
  end.

(** An optional string in a branch where the type checker has narrowed it to
    [string]. *)
Definition narrowed (x : option string) : string :=
  match x with
  | Some s => s
  | None => ""
  end.

(** The double quote character, for shell commands that contain it. *)
Definition dquote : string := String (Ascii.ascii_of_nat 34) EmptyString.

(** ** Completions *)

(** The outcome of a call: a value, or a thrown [Error] with its message. *)
Inductive completion (A : Type) : Type :=
| Normal (a : A)
| Throw (e : string).
Arguments Normal {A} a.
Arguments Throw {A} e.

Global Instance completion_ret : MRet completion := λ A, @Normal A.

Global Instance completion_bind : MBind completion :=
  λ A B f m, match m with Normal a => f a | Throw e => Throw e end.

Global Instance completion_fmap : FMap completion :=
  λ A B f m, match m with Normal a => Normal (f a) | Throw e => Throw e end.

(** ** Enumerations imported by the source *)

(** Modelled from the spec: [./toolkit] is not among the sources. The command
    verbs are the ones the spec enumerates for a toolkit operation descriptor:
    [bootstrap], [diff] and [deploy]; [toString()] of a string enum member is
    its value. *)
Module AcceleratorToolkitCommand.
Definition BOOTSTRAP : string := "bootstrap".
Definition DIFF : string := "diff".
Definition DEPLOY : string := "deploy".
End AcceleratorToolkitCommand.

(** [./accelerator-stage] is not among the sources either. Its members are
    string constants; the assembly is stated for any values they may have. *)
Record AcceleratorStageEnum : Type := {
  PREPARE : string;
  ACCOUNTS : string;
  LOGGING : string;
  ORGANIZATIONS : string;
  SECURITY_AUDIT : string;
  NETWORK_PREP : string;
  SECURITY : string;
  OPERATIONS : string;
  NETWORK_VPC : string;
  NETWORK_ASSOCIATIONS : string
}.

(** Modelled from the spec: stage tags in the style of the spec's examples
    ("accounts", "logging", "network-vpc"), used where a concrete table is
    needed. *)
Definition sampleStages : AcceleratorStageEnum := {|
  PREPARE := "prepare";
  ACCOUNTS := "accounts";
  LOGGING := "logging";
  ORGANIZATIONS := "organizations";
  SECURITY_AUDIT := "security-audit";
  NETWORK_PREP := "network-prep";
  SECURITY := "security";
  OPERATIONS := "operations";
  NETWORK_VPC := "network-vpc";
  NETWORK_ASSOCIATIONS := "network-associations"
|}.

(** ** The construct library, as far as the source uses it *)

(** What [cdk.Stack.of(this)] and [cdk.Aws] provide to the constructor. *)
Record Stack : Type := {
  account : string;
  region : string;
  PARTITION : string
}.

Module codebuild.

Inductive BuildEnvironmentVariableType : Type :=
| PLAINTEXT
| PARAMETER_STORE
| SECRETS_MANAGER.

Record BuildEnvironmentVariable : Type := {
  type : BuildEnvironmentVariableType;
  value : string
}.

Record BuildSpec : Type := {
  version : string;
  runtime_versions : list (string * Z);
  commands : list string;
  artifacts_files : list string;
  artifacts_enable_symlinks : option string
}.

Record BuildEnvironment : Type := {
  buildImage : string;
  privileged : bool;
  computeType : string;
  environmentVariables : gmap string BuildEnvironmentVariable
}.

End codebuild.

Module iam.

Record Role : Type := {
  assumedBy : string;
  managedPolicies : list string
}.

End iam.

Module codepipeline.

Record Artifact : Type := { artifactName : string }.

End codepipeline.

Module codecommit.

Record Repository : Type := { repositoryName : string }.

End codecommit.

Module Bucket.

Record t : Type := {
  encryptionType : string;
  s3BucketName : string;
  kmsAliasName : string;
  kmsDescription : string
}.

End Bucket.

(** Modelled from the spec: [./config-repository] is not among the sources.
    The construct keeps the properties it was created with, and
    [getRepository] is the repository of that name. *)
Module ConfigRepository.

Record t : Type := {
  repositoryName : string;
  repositoryBranchName : string;
  description : string
}.

Definition getRepository (c : t) : codecommit.Repository :=
  {| codecommit.repositoryName := repositoryName c |}.

End ConfigRepository.

Module PipelineProject.

Record t : Type := {
  projectName : string;
  role : iam.Role;
  timeout : option Z;
  buildSpec : codebuild.BuildSpec;
  environment : codebuild.BuildEnvironment;
  cache : string
}.

End PipelineProject.

(** ** Actions *)

Inductive CodeCommitTrigger : Type :=
| NONE
| POLL
| EVENTS.

Module CodeCommitSourceAction.

Record t : Type := {
  actionName : string;
  repository : codecommit.Repository;
  branch : string;
  output : codepipeline.Artifact;
  trigger : CodeCommitTrigger
}.

End CodeCommitSourceAction.

Module CodeBuildAction.

Record t : Type := {
  actionName : string;
  runOrder : option Z;
  project : PipelineProject.t;
  input : codepipeline.Artifact;
  extraInputs : list codepipeline.Artifact;
  outputs : option (list codepipeline.Artifact);
  role : iam.Role;
  environmentVariables : option (gmap string codebuild.BuildEnvironmentVariable)
}.

End CodeBuildAction.

Module ManualApprovalAction.

Record t : Type := {
  actionName : string;
  runOrder : option Z;
  additionalInformation : string
}.

End ManualApprovalAction.

(** The three classes of action the pipeline holds, under their common
    interface. *)
Inductive IAction : Type :=
| Source_ (a : CodeCommitSourceAction.t)
| CodeBuild_ (a : CodeBuildAction.t)
| ManualApproval_ (a : ManualApprovalAction.t).

Definition actionName (a : IAction) : string :=
  match a with
  | Source_ s => CodeCommitSourceAction.actionName s
  | CodeBuild_ b => CodeBuildAction.actionName b
  | ManualApproval_ m => ManualApprovalAction.actionName m
  end.

(** The run order as declared; a source action declares none. *)
Definition runOrder (a : IAction) : option Z :=
  match a with
  | Source_ _ => None
  | CodeBuild_ b => CodeBuildAction.runOrder b
  | ManualApproval_ m => ManualApprovalAction.runOrder m
  end.

(** ** Stages and the pipeline *)

Record StageProps : Type := {
  stageName : string;
  actions : list IAction
}.

Module Pipeline.

Record t : Type := {
  pipelineName : string;
  artifactBucket : Bucket.t;
  role : iam.Role;
  stages : list StageProps
}.

End Pipeline.

(** Does [n] occur in [names]? *)
Definition occurs (n : string) (names : list string) : bool :=
  existsb (String.eqb n) names.

(** The first name of the list that occurs again later in it. *)
Fixpoint firstDuplicate (names : list string) : option string :=
  match names with
  | [] => None
  | n :: rest => if occurs n rest then Some n else firstDuplicate rest
  end.

(** Modelled from the spec: the pipeline class belongs to the construct
    library, not to the sources. A stage name is unique in the pipeline and an
    action name is unique in its stage; a collision is fatal and ends the
    assembly at once. Otherwise the stage is appended after the stages added
    so far. *)
Definition addStage (pipeline : Pipeline.t) (props : StageProps)
  : completion Pipeline.t :=
  if occurs (stageName props) (stageName <$> Pipeline.stages pipeline)
  then Throw ("Stage with duplicate name '" +:+ stageName props +:+ "'")
  else
    match firstDuplicate (actionName <$> actions props) with
    | Some n =>
        Throw ("Stage " +:+ stageName props +:+
               " already contains an action with name '" +:+ n +:+ "'")
    | None =>
        Normal {| Pipeline.pipelineName := Pipeline.pipelineName pipeline;
                  Pipeline.artifactBucket := Pipeline.artifactBucket pipeline;
                  Pipeline.role := Pipeline.role pipeline;
                  Pipeline.stages := Pipeline.stages pipeline ++ [props] |}
    end.

(** ** Calls into the construct library *)

(** The calls of the constructor that the library may refuse, each with what
    it is given. *)
Inductive LibraryCall : Type :=
| NewBucket (props : Bucket.t)
| BucketMetadata (bucket : Bucket.t)
| NewConfigRepository (props : ConfigRepository.t)
| NewPipeline (props : Pipeline.t)
| PolicyMetadata (pipeline : Pipeline.t)
| FromRepositoryName (props : codecommit.Repository)
| NewCodeCommitSourceAction (props : CodeCommitSourceAction.t)
| NewPipelineProject (props : PipelineProject.t).

(** A library: for each call, the message of the error it throws, if any. *)
Definition Library : Type := LibraryCall → option string.

(** A call that yields [x] unless the library refuses it. *)
Definition construct {A : Type} (library : Library) (call : A → LibraryCall)
  (x : A) : completion A :=
  match library (call x) with
  | Some e => Throw e
  | None => Normal x
  end.

(** ** The class [AcceleratorPipeline] *)

Record AcceleratorPipelineProps : Type := {
  sourceRepositoryName : string;
  sourceBranchName : string;
  enableApprovalStage : bool;
  qualifier : option string;
  managementAccountId : option string;
  managementAccountRoleName : option string
}.

(** The private fields of the class. *)
Record AcceleratorPipeline : Type := {
  pipelineRole : iam.Role;
  toolkitRole : iam.Role;
  toolkitProject : PipelineProject.t;
  buildOutput : codepipeline.Artifact;
  acceleratorRepoArtifact : codepipeline.Artifact;
  configRepoArtifact : codepipeline.Artifact
}.

(** The argument of [createToolkitStage]: a toolkit operation descriptor. *)
Module ToolkitStageProps.

Record t : Type := {
  actionName : string;
  command : string;
  stage : option string;
  runOrder : option Z
}.

End ToolkitStageProps.

Definition plaintext (v : string) : codebuild.BuildEnvironmentVariable :=
  {| codebuild.type := codebuild.PLAINTEXT; codebuild.value := v |}.

(** The [cdkOptions] local of [createToolkitStage]. *)
Definition cdkOptions (props : ToolkitStageProps.t) : string :=
  if String.eqb (ToolkitStageProps.command props) AcceleratorToolkitCommand.BOOTSTRAP
     || String.eqb (ToolkitStageProps.command props) AcceleratorToolkitCommand.DIFF
  then ToolkitStageProps.command props
  else ToolkitStageProps.command props +:+ " --stage " +:+
       template (ToolkitStageProps.stage props).

(** The [environmentVariables] local of [createToolkitStage], after the
    conditional assignment. *)
Definition toolkitEnvironmentVariables (props : ToolkitStageProps.t)
  : gmap string codebuild.BuildEnvironmentVariable :=
  let environmentVariables : gmap string codebuild.BuildEnvironmentVariable :=
    {[ "CDK_OPTIONS" := plaintext (cdkOptions props) ]} in
  if truthy (ToolkitStageProps.stage props)
  then <[ "ACCELERATOR_STAGE" :=
            plaintext (nullish (ToolkitStageProps.stage props) "") ]>
         environmentVariables
  else environmentVariables.

Definition createToolkitStage (this : AcceleratorPipeline)
  (props : ToolkitStageProps.t) : completion CodeBuildAction.t :=
  mret {| CodeBuildAction.actionName := ToolkitStageProps.actionName props;
          CodeBuildAction.runOrder := ToolkitStageProps.runOrder props;
          CodeBuildAction.project := toolkitProject this;
          CodeBuildAction.input := buildOutput this;
          CodeBuildAction.extraInputs := [configRepoArtifact this];
          CodeBuildAction.outputs := None;
          CodeBuildAction.role := pipelineRole this;
          CodeBuildAction.environmentVariables :=
            Some (toolkitEnvironmentVariables props) |}.

(** Everything the constructor creates: the object itself and the constructs
    it registers under it. *)
Record Assembly : Type := {
  this_ : AcceleratorPipeline;
  bucket : Bucket.t;
  configRepository : ConfigRepository.t;
  buildProject : PipelineProject.t;
  pipeline : Pipeline.t
}.

Definition nodeOptions : codebuild.BuildEnvironmentVariable :=
  plaintext "--max_old_space_size=4096".

Definition buildProjectSpec : codebuild.BuildSpec :=
  {| codebuild.version := "0.2";
     codebuild.runtime_versions := [("nodejs", 14)];
     codebuild.commands :=
       ["env"; "cd source"; "yarn install"; "yarn lerna link"; "yarn build"];
     codebuild.artifacts_files := ["**/*"];
     codebuild.artifacts_enable_symlinks := Some "yes" |}.

Definition toolkitProjectSpec (partition : string) : codebuild.BuildSpec :=
  {| codebuild.version := "0.2";
     codebuild.runtime_versions := [("nodejs", 14)];
     codebuild.commands :=
       ["env";
        "cd source";
        "cd packages/@aws-accelerator/accelerator";
        "if [ -z " +:+ dquote +:+ "${ACCELERATOR_STAGE}" +:+ dquote +:+
          " ]; then yarn run ts-node --transpile-only cdk.ts synth --require-approval never --config-dir $CODEBUILD_SRC_DIR_Config --partition "
          +:+ partition +:+ "; fi";
        "if [ ! -z " +:+ dquote +:+ "${ACCELERATOR_STAGE}" +:+ dquote +:+
          " ]; then yarn run ts-node --transpile-only cdk.ts synth --stage $ACCELERATOR_STAGE --require-approval never --config-dir $CODEBUILD_SRC_DIR_Config --partition "
          +:+ partition +:+ "; fi";
        "yarn run ts-node --transpile-only cdk.ts --require-approval never $CDK_OPTIONS --config-dir $CODEBUILD_SRC_DIR_Config --partition "
          +:+ partition +:+ " --app cdk.out"];
     codebuild.artifacts_files := [];
     codebuild.artifacts_enable_symlinks := None |}.

(** The [pipelineAccountEnvVariables] local of the constructor. *)
Definition pipelineAccountEnvVariables (props : AcceleratorPipelineProps)
  : option (gmap string codebuild.BuildEnvironmentVariable) :=
  if truthy (managementAccountId props) && truthy (managementAccountRoleName props)
  then Some (<[ "MANAGEMENT_ACCOUNT_ID" :=
                  plaintext (narrowed (managementAccountId props)) ]>
             {[ "MANAGEMENT_ACCOUNT_ROLE_NAME" :=
                  plaintext (narrowed (managementAccountRoleName props)) ]})
  else None.

(** An object literal that ends with [...o]: the entries of [o] come last and
    win; spreading [undefined] adds nothing. *)
Definition spread {V : Type} (literal : gmap string V) (o : option (gmap string V))
  : gmap string V :=
  match o with
  | Some entries => entries ∪ literal
  | None => literal
  end.

(** [this.createToolkitStage(...)] as one element of an [actions] array. *)
Definition toolkitAction (this : AcceleratorPipeline)
  (props : ToolkitStageProps.t) : completion IAction :=
  CodeBuild_ <$> createToolkitStage this props.

Section Constructor.

(** The construct library the constructor calls into. *)
Variable library : Library.

(** The members of the enumeration [AcceleratorStage]. *)
Variable AcceleratorStage : AcceleratorStageEnum.

(** The stack the construct is created in. *)
Variable scope : Stack.

(** A toolkit operation descriptor as the constructor writes them. *)
Definition descriptor (name verb : string) (tag : option string)
  (order : option Z) : ToolkitStageProps.t :=
  {| ToolkitStageProps.actionName := name;
     ToolkitStageProps.command := verb;
     ToolkitStageProps.stage := tag;
     ToolkitStageProps.runOrder := order |}.

(** The constructor of [AcceleratorPipeline]. *)
Definition constructor (props : AcceleratorPipelineProps) : completion Assembly :=
  let pipelineAccountEnvVariables := pipelineAccountEnvVariables props in
  bucket ← construct library NewBucket
    {| Bucket.encryptionType := "SSE_KMS";
       Bucket.s3BucketName :=
         nullish (qualifier props) "aws-accelerator" +:+ "-pipeline-" +:+
         account scope +:+ "-" +:+ region scope;
       Bucket.kmsAliasName :=
         "alias/" +:+ nullish (qualifier props) "aws-accelerator" +:+ "/pipeline/s3";
       Bucket.kmsDescription := "AWS Accelerator Pipeline Bucket CMK" |};
  _ ← construct library BucketMetadata bucket;
  configRepository ← construct library NewConfigRepository
    {| ConfigRepository.repositoryName :=
         nullish (qualifier props) "aws-accelerator" +:+ "-config";
       ConfigRepository.repositoryBranchName := "main";
       ConfigRepository.description :=
         "AWS Accelerator configuration repository, created and initialized with default config file by pipeline" |};
  let pipelineRole :=
    {| iam.assumedBy := "codepipeline.amazonaws.com"; iam.managedPolicies := [] |} in
  pipeline ← construct library NewPipeline
    {| Pipeline.pipelineName :=
         if truthy (qualifier props)
         then template (qualifier props) +:+ "-pipeline"
         else "AWSAccelerator-Pipeline";
       Pipeline.artifactBucket := bucket;
       Pipeline.role := pipelineRole;
       Pipeline.stages := [] |};
  _ ← construct library PolicyMetadata pipeline;
  let acceleratorRepoArtifact := {| codepipeline.artifactName := "Source" |} in
  let configRepoArtifact := {| codepipeline.artifactName := "Config" |} in
  sourceRepo ← construct library FromRepositoryName
    {| codecommit.repositoryName := sourceRepositoryName props |};
  sourceAction ← construct library NewCodeCommitSourceAction
    {| CodeCommitSourceAction.actionName := "Source";
       CodeCommitSourceAction.repository := sourceRepo;
       CodeCommitSourceAction.branch := sourceBranchName props;
       CodeCommitSourceAction.output := acceleratorRepoArtifact;
       CodeCommitSourceAction.trigger := NONE |};
  configurationAction ← construct library NewCodeCommitSourceAction
    {| CodeCommitSourceAction.actionName := "Configuration";
       CodeCommitSourceAction.repository :=
         ConfigRepository.getRepository configRepository;
       CodeCommitSourceAction.branch := "main";
       CodeCommitSourceAction.output := configRepoArtifact;
       CodeCommitSourceAction.trigger := NONE |};
  pipeline ← addStage pipeline
    {| stageName := "Source";
       actions := [Source_ sourceAction; Source_ configurationAction] |};
  let buildRole :=
    {| iam.assumedBy := "codebuild.amazonaws.com"; iam.managedPolicies := [] |} in
  buildProject ← construct library NewPipelineProject
    {| PipelineProject.projectName :=
         if truthy (qualifier props)
         then template (qualifier props) +:+ "-build-project"
         else "AWSAccelerator-BuildProject";
       PipelineProject.role := buildRole;
       PipelineProject.timeout := None;
       PipelineProject.buildSpec := buildProjectSpec;
       PipelineProject.environment :=
         {| codebuild.buildImage := "STANDARD_5_0";
            codebuild.privileged := true;
            codebuild.computeType := "MEDIUM";
            codebuild.environmentVariables := {[ "NODE_OPTIONS" := nodeOptions ]} |};
       PipelineProject.cache := "LOCAL_SOURCE" |};
  let buildOutput := {| codepipeline.artifactName := "Build" |} in
  pipeline ← addStage pipeline
    {| stageName := "Build";
       actions :=
         [CodeBuild_
            {| CodeBuildAction.actionName := "Build";
               CodeBuildAction.runOrder := None;
               CodeBuildAction.project := buildProject;
               CodeBuildAction.input := acceleratorRepoArtifact;
               CodeBuildAction.extraInputs := [configRepoArtifact];
               CodeBuildAction.outputs := Some [buildOutput];
               CodeBuildAction.role := pipelineRole;
               CodeBuildAction.environmentVariables := None |}] |};
  let toolkitRole :=
    {| iam.assumedBy := "codebuild.amazonaws.com";
       iam.managedPolicies := ["AdministratorAccess"] |} in
  toolkitProject ← construct library NewPipelineProject
    {| PipelineProject.projectName :=
         if truthy (qualifier props)
         then template (qualifier props) +:+ "-toolkit-project"
         else "AWSAccelerator-ToolkitProject";
       PipelineProject.role := toolkitRole;
       PipelineProject.timeout := Some 5;
       PipelineProject.buildSpec := toolkitProjectSpec (PARTITION scope);
       PipelineProject.environment :=
         {| codebuild.buildImage := "STANDARD_5_0";
            codebuild.privileged := true;
            codebuild.computeType := "MEDIUM";
            codebuild.environmentVariables :=
              spread (<[ "NODE_OPTIONS" := nodeOptions ]>
                      {[ "CDK_NEW_BOOTSTRAP" := plaintext "1" ]})
                     pipelineAccountEnvVariables |};
       PipelineProject.cache := "LOCAL_SOURCE" |};
  let this :=
    {| pipelineRole := pipelineRole;
       toolkitRole := toolkitRole;
       toolkitProject := toolkitProject;
       buildOutput := buildOutput;
       acceleratorRepoArtifact := acceleratorRepoArtifact;
       configRepoArtifact := configRepoArtifact |} in
  prepare ← toolkitAction this
    (descriptor "Prepare" "deploy" (Some (PREPARE AcceleratorStage)) None);
  pipeline ← addStage pipeline {| stageName := "Prepare"; actions := [prepare] |};
  accounts ← toolkitAction this
    (descriptor "Accounts" "deploy" (Some (ACCOUNTS AcceleratorStage)) None);
  pipeline ← addStage pipeline {| stageName := "Accounts"; actions := [accounts] |};
  bootstrap ← toolkitAction this (descriptor "Bootstrap" "bootstrap" None None);
  pipeline ← addStage pipeline {| stageName := "Bootstrap"; actions := [bootstrap] |};
  pipeline ←
    (if enableApprovalStage props
     then
       diff ← toolkitAction this (descriptor "Diff" "diff" None (Some 1));
       addStage pipeline
         {| stageName := "Review";
            actions :=
              [diff;
               ManualApproval_
                 {| ManualApprovalAction.actionName := "Approve";
                    ManualApprovalAction.runOrder := Some 2;
                    ManualApprovalAction.additionalInformation :=
                      "See previous stage (Diff) for changes." |}] |}
     else mret pipeline);
  logging ← toolkitAction this
    (descriptor "Logging" "deploy" (Some (LOGGING AcceleratorStage)) None);
  pipeline ← addStage pipeline {| stageName := "Logging"; actions := [logging] |};
  organizations ← toolkitAction this
    (descriptor "Organizations" "deploy" (Some (ORGANIZATIONS AcceleratorStage)) None);
  pipeline ← addStage pipeline
    {| stageName := "Organization"; actions := [organizations] |};
  securityAudit ← toolkitAction this
    (descriptor "SecurityAudit" "deploy" (Some (SECURITY_AUDIT AcceleratorStage)) None);
  pipeline ← addStage pipeline
    {| stageName := "SecurityAudit"; actions := [securityAudit] |};
  networkPrepare ← toolkitAction this
    (descriptor "Network_Prepare" "deploy" (Some (NETWORK_PREP AcceleratorStage)) (Some 1));
  security ← toolkitAction this
    (descriptor "Security" "deploy" (Some (SECURITY AcceleratorStage)) (Some 1));
  operations ← toolkitAction this
    (descriptor "Operations" "deploy" (Some (OPERATIONS AcceleratorStage)) (Some 1));
  networkVpcs ← toolkitAction this
    (descriptor "Network_VPCs" "deploy" (Some (NETWORK_VPC AcceleratorStage)) (Some 2));
  networkAssociations ← toolkitAction this
    (descriptor "Network_Associations" "deploy"
       (Some (NETWORK_ASSOCIATIONS AcceleratorStage)) (Some 3));
  pipeline ← addStage pipeline
    {| stageName := "Deploy";
       actions := [networkPrepare; security; operations; networkVpcs;
                   networkAssociations] |};
  mret {| this_ := this;
          bucket := bucket;
          configRepository := configRepository;
          buildProject := buildProject;
          pipeline := pipeline |}.

End Constructor.

(** ** Sample inputs *)

(** The characters of a pipeline or project name: letters, digits and
    [. @ - _]. *)
Definition nameChar (c : Ascii.ascii) : bool :=
  let n := Ascii.nat_of_ascii c in
  ((48 <=? n) && (n <=? 57) || (65 <=? n) && (n <=? 90)
   || (97 <=? n) && (n <=? 122)
   || (n =? 45) || (n =? 46) || (n =? 64) || (n =? 95))%nat.

Fixpoint nameChars (s : string) : bool :=
  match s with
  | EmptyString => true
  | String c rest => nameChar c && nameChars rest
  end.

Definition validName (s : string) : bool :=
  negb (String.eqb s "") && nameChars s.

(** A sample library, with checks in the manner of the construct library: a
    CodeCommit action needs a branch that is not empty, and the name of a
    pipeline or of a project is made of [nameChar]s. It accepts every other
    call. *)
Definition sampleLibrary : Library :=
  λ call,
    match call with
    | NewCodeCommitSourceAction action =>
        if String.eqb (CodeCommitSourceAction.branch action) ""
        then Some "'branch' parameter cannot be an empty string"
        else None
    | NewPipeline pipeline =>
        if validName (Pipeline.pipelineName pipeline)
        then None
        else Some ("Pipeline name must match regular expression [A-Za-z0-9.@_-]+, got '"
                   +:+ Pipeline.pipelineName pipeline +:+ "'")
    | NewPipelineProject project =>
        if validName (PipelineProject.projectName project)
        then None
        else Some ("Project name must match regular expression [A-Za-z0-9.@_-]+, got '"
                   +:+ PipelineProject.projectName project +:+ "'")
    | _ => None
    end.

Definition sampleScope : Stack :=
  {| account := "444455556666"; region := "eu-west-1"; PARTITION := "aws" |}.

(** Approval stage enabled; a management account id without a role name. *)
Definition sampleProps : AcceleratorPipelineProps :=
  {| sourceRepositoryName := "aws-accelerator-source";
     sourceBranchName := "release";
     enableApprovalStage := true;
     qualifier := None;
     managementAccountId := Some "111122223333";
     managementAccountRoleName := None |}.

(** No qualifier, no approval stage, no management account. *)
Definition plainProps : AcceleratorPipelineProps :=
  {| sourceRepositoryName := "aws-accelerator-source";
     sourceBranchName := "main";
     enableApprovalStage := false;
     qualifier := None;
     managementAccountId := None;
     managementAccountRoleName := None |}.

(** The value of a call that completes. *)
Definition valueOf {A : Type} (m : completion A)
  : match m with Normal _ => A | Throw _ => unit end :=
  match m with
  | Normal a => a
  | Throw _ => tt
  end.

(** ** Projections used in the statements *)

Definition stageNames (a : Assembly) : list string :=
  stageName <$> Pipeline.stages (pipeline a).

(** The first stage of that name. *)
Definition findStage (name : string) (a : Assembly) : option StageProps :=
  find (λ st, String.eqb (stageName st) name) (Pipeline.stages (pipeline a)).

(** An action as the run-order claims see it: its name and declared run
    order. *)
Definition nameAndOrder (x : IAction) : string * option Z :=
  (actionName x, runOrder x).

(** The value of an environment variable of a CodeBuild action. *)
Definition actionVariable (name : string) (b : CodeBuildAction.t)
  : option string :=
  env ← CodeBuildAction.environmentVariables b;
  codebuild.value <$> env !! name.

(** The environment variables of the toolkit project. *)
Definition toolkitEnvironment (a : Assembly)
  : gmap string codebuild.BuildEnvironmentVariable :=
  codebuild.environmentVariables
    (PipelineProject.environment (toolkitProject (this_ a))).

(** [ensures m Q]: a value the call [m] completes with satisfies [Q]. *)
Definition ensures {A : Type} (m : completion A) (Q : A → Prop) : Prop :=
  match m with
  | Normal a => Q a
  | Throw _ => True
  end.

(** A call that throws. *)
Definition fails {A : Type} (m : completion A) : Prop := ∃ e, m = Throw e.

(** A pipeline with one more stage. *)
Definition extended (p : Pipeline.t) (st : StageProps) : Pipeline.t :=
  {| Pipeline.pipelineName := Pipeline.pipelineName p;
     Pipeline.artifactBucket := Pipeline.artifactBucket p;
     Pipeline.role := Pipeline.role p;
     Pipeline.stages := Pipeline.stages p ++ [st] |}.

(** The object the constructor builds for [plainProps] in [sampleScope]. *)
Definition sampleThis : AcceleratorPipeline :=
  let toolkitRole :=
    {| iam.assumedBy := "codebuild.amazonaws.com";
       iam.managedPolicies := ["AdministratorAccess"] |} in
  {| pipelineRole :=
       {| iam.assumedBy := "codepipeline.amazonaws.com"; iam.managedPolicies := [] |};
     toolkitRole := toolkitRole;
     toolkitProject :=
       {| PipelineProject.projectName := "AWSAccelerator-ToolkitProject";
          PipelineProject.role := toolkitRole;
          PipelineProject.timeout := Some 5;
          PipelineProject.buildSpec := toolkitProjectSpec "aws";
          PipelineProject.environment :=
            {| codebuild.buildImage := "STANDARD_5_0";
               codebuild.privileged := true;
               codebuild.computeType := "MEDIUM";
               codebuild.environmentVariables :=
                 <[ "NODE_OPTIONS" := nodeOptions ]>
                 {[ "CDK_NEW_BOOTSTRAP" := plaintext "1" ]} |};
          PipelineProject.cache := "LOCAL_SOURCE" |};
     buildOutput := {| codepipeline.artifactName := "Build" |};
     acceleratorRepoArtifact := {| codepipeline.artifactName := "Source" |};
     configRepoArtifact := {| codepipeline.artifactName := "Config" |} |}.

(** The configuration with another source branch. *)
Definition withSourceBranch (b : string) (props : AcceleratorPipelineProps)
  : AcceleratorPipelineProps :=
  {| sourceRepositoryName := sourceRepositoryName props;
     sourceBranchName := b;
     enableApprovalStage := enableApprovalStage props;
     qualifier := qualifier props;
     managementAccountId := managementAccountId props;
     managementAccountRoleName := managementAccountRoleName props |}.

(** The configuration without management account. *)
Definition withoutManagementAccount (props : AcceleratorPipelineProps)
  : AcceleratorPipelineProps :=
  {| sourceRepositoryName := sourceRepositoryName props;
     sourceBranchName := sourceBranchName props;
     enableApprovalStage := enableApprovalStage props;
     qualifier := qualifier props;
     managementAccountId := None;
     managementAccountRoleName := None |}.

(** Exactly one of the management account id and role name is supplied. *)
Definition unpairedManagementAccount (props : AcceleratorPipelineProps) : Prop :=
  (is_Some (managementAccountId props) ∧ managementAccountRoleName props = None) ∨
  (managementAccountId props = None ∧ is_Some (managementAccountRoleName props)).

(** The action with branch [b] if it is the CodeCommit action named Source,
    the action itself otherwise. *)
Definition setSourceBranch (b : string) (x : IAction) : IAction :=
  match x with
  | Source_ s =>
      if String.eqb (CodeCommitSourceAction.actionName s) "Source"
      then Source_
             {| CodeCommitSourceAction.actionName := CodeCommitSourceAction.actionName s;
                CodeCommitSourceAction.repository := CodeCommitSourceAction.repository s;
                CodeCommitSourceAction.branch := b;
                CodeCommitSourceAction.output := CodeCommitSourceAction.output s;
                CodeCommitSourceAction.trigger := CodeCommitSourceAction.trigger s |}
      else x
  | _ => x
  end.

(** The assembly in which only the branch of the Source action is changed. *)
Definition withSourceActionBranch (b : string) (a : Assembly) : Assembly :=
  {| this_ := this_ a;
     bucket := bucket a;
     configRepository := configRepository a;
     buildProject := buildProject a;
     pipeline :=
       {| Pipeline.pipelineName := Pipeline.pipelineName (pipeline a);
          Pipeline.artifactBucket := Pipeline.artifactBucket (pipeline a);
          Pipeline.role := Pipeline.role (pipeline a);
          Pipeline.stages :=
            (λ st, {| stageName := stageName st;
                      actions := setSourceBranch b <$> actions st |})
            <$> Pipeline.stages (pipeline a) |} |}.

(** ** Further projections *)

(** All actions of the pipeline, stage after stage. *)
Definition allActions (a : Assembly) : list IAction :=
  Pipeline.stages (pipeline a) ≫= actions.






(** The value of an environment variable of an action; only CodeBuild
    actions have any. *)
Definition variableOf (name : string) (x : IAction) : option string :=
  match x with
  | CodeBuild_ b => actionVariable name b
  | _ => None
  end.

Definition isManualApproval (x : IAction) : bool :=
  match x with
  | ManualApproval_ _ => true
  | _ => false
  end.

(** What an operator sees of an action: its name, its declared run order and
    the environment variables it passes to its project. *)
Definition actionOutline (x : IAction)
  : string * option Z * option (gmap string codebuild.BuildEnvironmentVariable) :=
  (actionName x, runOrder x,
   match x with
   | CodeBuild_ b => CodeBuildAction.environmentVariables b
   | _ => None
   end).

(** The stages by name, each with the outlines of its actions. *)
Definition outline (a : Assembly) :=
  (λ st, (stageName st, actionOutline <$> actions st))
  <$> Pipeline.stages (pipeline a).

(** The members of the stage enumeration the constructor uses. *)
Definition members (stg : AcceleratorStageEnum) : list string :=
  [PREPARE stg; ACCOUNTS stg; LOGGING stg; ORGANIZATIONS stg;
   SECURITY_AUDIT stg; NETWORK_PREP stg; SECURITY stg; OPERATIONS stg;
   NETWORK_VPC stg; NETWORK_ASSOCIATIONS stg].

(** A qualifier, the approval stage, and a management account with its role. *)
Definition qualifiedProps : AcceleratorPipelineProps :=
  {| sourceRepositoryName := "lza-source";
     sourceBranchName := "develop";
     enableApprovalStage := true;
     qualifier := Some "lza";
     managementAccountId := Some "111122223333";
     managementAccountRoleName := Some "PipelineRole" |}.

(** A qualifier with a space in it. *)
Definition spacedQualifierProps : AcceleratorPipelineProps :=
  {| sourceRepositoryName := "aws-accelerator-source";
     sourceBranchName := "main";
     enableApprovalStage := false;
     qualifier := Some "my app";
     managementAccountId := None;
     managementAccountRoleName := None |}.

(** Another stack. *)
Definition otherScope : Stack :=
  {| account := "777788889999"; region := "us-east-1"; PARTITION := "aws-us-gov" |}.

(** The assemblies of the sample configurations with the sample library. *)
Definition plainAssembly : Assembly :=
  valueOf (constructor sampleLibrary sampleStages sampleScope plainProps).

Definition sampleAssembly : Assembly :=
  valueOf (constructor sampleLibrary sampleStages sampleScope sampleProps).

Definition qualifiedAssembly : Assembly :=
  valueOf (constructor sampleLibrary sampleStages otherScope qualifiedProps).

(** * Properties *)

(** ** Auxiliary facts *)

Lemma truthy_true (x : option string) :
  truthy x = true ↔ ∃ s, x = Some s ∧ s ≠ "".
Proof.
  destruct x as [s|]; simpl.
  - rewrite negb_true_iff, String.eqb_neq. split.
    + intros Hs. exists s. auto.
    + intros (s' & [= <-] & Hs). exact Hs.
  - split; [discriminate | intros (s & [=] & _)].
Qed.

Lemma truthy_false (x : option string) :
  truthy x = false ↔ x = None ∨ x = Some "".
Proof.
  destruct x as [s|]; simpl.
  - rewrite negb_false_iff, String.eqb_eq. split.
    + intros ->. now right.
    + intros [[=] | [= ->]]. reflexivity.
  - split; auto.
Qed.

Lemma occurs_elem_of (n : string) (names : list string) :
  occurs n names = true ↔ n ∈ names.
Proof.
  unfold occurs. induction names as [|m names IH]; simpl.
  - split; [discriminate | intros H; inversion H].
  - rewrite orb_true_iff, IH, String.eqb_eq, elem_of_cons. reflexivity.
Qed.

Lemma firstDuplicate_None (names : list string) :
  firstDuplicate names = None ↔ NoDup names.
Proof.
  induction names as [|n names IH]; simpl.
  - split; [constructor | reflexivity].
  - rewrite NoDup_cons. destruct (occurs n names) eqn:Hocc.
    + apply occurs_elem_of in Hocc. split; [discriminate | tauto].
    + rewrite IH. split; [|tauto]. intros Hnd. split; [|exact Hnd].
      intros Hin. apply occurs_elem_of in Hin. congruence.
Qed.

(** What a completed [addStage] has checked and done. *)
Lemma addStage_Normal (p p' : Pipeline.t) (st : StageProps) :
  addStage p st = Normal p' →
  (stageName st ∉ stageName <$> Pipeline.stages p) ∧
  NoDup (actionName <$> actions st) ∧
  Pipeline.stages p' = Pipeline.stages p ++ [st].
Proof.
  unfold addStage.
  destruct (occurs _ _) eqn:Hst; [discriminate|].
  destruct (firstDuplicate _) eqn:Hdup; [discriminate|].
  intros [= <-]. split; [|split].
  - intros Hin. apply occurs_elem_of in Hin. congruence.
  - now apply firstDuplicate_None.
  - reflexivity.
Qed.

(** ** Reasoning about completions *)

Lemma ensures_elim {A : Type} (m : completion A) (Q : A → Prop) (a : A) :
  ensures m Q → m = Normal a → Q a.
Proof. intros H ->. exact H. Qed.

Lemma ensures_ret {A : Type} (a : A) (Q : A → Prop) :
  Q a → ensures (mret a) Q.
Proof. exact id. Qed.

Lemma ensures_bind {A B : Type} (m : completion A) (k : A → completion B)
  (Q : B → Prop) :
  ensures m (λ x, ensures (k x) Q) → ensures (m ≫= k) Q.
Proof. destruct m; simpl; auto. Qed.

(** A construct the library yields is the one it was asked for. *)
Lemma ensures_construct {A : Type} (library : Library) (call : A → LibraryCall)
  (x : A) (Q : A → Prop) :
  Q x → ensures (construct library call x) Q.
Proof. unfold construct, ensures. destruct (library _); auto. Qed.

Lemma construct_Normal {A : Type} (library : Library) (call : A → LibraryCall)
  (x y : A) :
  construct library call x = Normal y ↔ library (call x) = None ∧ y = x.
Proof.
  unfold construct. destruct (library _) as [e|].
  - split; [discriminate | intros [[=] _]].
  - split; [intros [= <-]; auto | intros [_ ->]; reflexivity].
Qed.

Lemma ensures_addStage (p : Pipeline.t) (st : StageProps)
  (Q : Pipeline.t → Prop) :
  occurs (stageName st) (stageName <$> Pipeline.stages p) = false →
  firstDuplicate (actionName <$> actions st) = None →
  Q (extended p st) →
  ensures (addStage p st) Q.
Proof. unfold addStage, ensures. intros -> ->. auto. Qed.

(** The action [createToolkitStage] builds. *)
Lemma createToolkitStage_Normal this props :
  createToolkitStage this props =
  Normal {| CodeBuildAction.actionName := ToolkitStageProps.actionName props;
            CodeBuildAction.runOrder := ToolkitStageProps.runOrder props;
            CodeBuildAction.project := toolkitProject this;
            CodeBuildAction.input := buildOutput this;
            CodeBuildAction.extraInputs := [configRepoArtifact this];
            CodeBuildAction.outputs := None;
            CodeBuildAction.role := pipelineRole this;
            CodeBuildAction.environmentVariables :=
              Some (toolkitEnvironmentVariables props) |}.
Proof. reflexivity. Qed.

Lemma ensures_toolkitAction this props (Q : IAction → Prop) :
  (∀ b, createToolkitStage this props = Normal b → Q (CodeBuild_ b)) →
  ensures (toolkitAction this props) Q.
Proof. intros H. apply H. reflexivity. Qed.

(** One step of the constructor: a [let] becomes a local definition, and so
    does a construct the library yields; a call is replaced by what it
    returns. Where the library refuses a call there is nothing to show. *)
Ltac step :=
  lazymatch goal with
  | |- ensures (let x := ?v in @?b x) ?Q =>
      let y := fresh x in
      pose (y := v); change (ensures (b y) Q); cbv beta
  | |- ensures (if true then ?m else _) ?Q => change (ensures m Q)
  | |- ensures (if false then _ else ?m) ?Q => change (ensures m Q)
  | |- ensures (mbind ?k ?m) ?Q => apply ensures_bind
  | |- ensures (construct ?l ?c ?x) ?Q =>
      let y := fresh "made" in
      pose (y := x); change (ensures (construct l c y) Q);
      apply ensures_construct; cbv beta
  | |- ensures (addStage ?p ?st) ?Q =>
      apply ensures_addStage; [reflexivity | reflexivity | ]
  | |- ensures (toolkitAction ?this ?d) ?Q =>
      apply ensures_toolkitAction;
      let b := fresh "action" in
      let Hb := fresh "H" b in
      intros b Hb; rewrite createToolkitStage_Normal in Hb;
      injection Hb as <-
  | |- ensures (mret ?a) ?Q => apply ensures_ret
  end.

(** Runs the constructor to its end, for a known value of the approval flag. *)
Ltac assemble Hflag :=
  cbv beta delta [constructor]; rewrite ?Hflag; repeat step.

(** From a property of what the constructor ensures to the property of a
    given completed assembly. *)
Ltac completed Ha :=
  lazymatch type of Ha with
  | _ = Normal ?a => pattern a; eapply ensures_elim; [|exact Ha]; clear Ha
  end.

(** ** The sample library at work *)

Example plain_assembly_completes :
  stageNames <$> constructor sampleLibrary sampleStages sampleScope plainProps =
  Normal ["Source"; "Build"; "Prepare"; "Accounts"; "Bootstrap"; "Logging";
          "Organization"; "SecurityAudit"; "Deploy"].
Proof. vm_compute. reflexivity. Qed.

Example empty_branch_is_refused :
  constructor sampleLibrary sampleStages sampleScope
    (withSourceBranch "" plainProps) =
  Throw "'branch' parameter cannot be an empty string".
Proof. vm_compute. reflexivity. Qed.

Example spaced_qualifier_is_refused :
  fails (constructor sampleLibrary sampleStages sampleScope spacedQualifierProps).
Proof. eexists. vm_compute. reflexivity. Qed.

Example sampleThis_assembled :
  this_ <$> constructor sampleLibrary sampleStages sampleScope plainProps =
  Normal sampleThis.
Proof. vm_compute. reflexivity. Qed.

Lemma plainAssembly_run :
  constructor sampleLibrary sampleStages sampleScope plainProps =
  Normal plainAssembly.
Proof. vm_compute. reflexivity. Qed.

Lemma sampleAssembly_run :
  constructor sampleLibrary sampleStages sampleScope sampleProps =
  Normal sampleAssembly.
Proof. vm_compute. reflexivity. Qed.

Lemma qualifiedAssembly_run :
  constructor sampleLibrary sampleStages otherScope qualifiedProps =
  Normal qualifiedAssembly.
Proof. vm_compute. reflexivity. Qed.

(** ** Stage order *)

(** C3: the stages of a completed assembly are, in this order, Source,
    Build, Prepare, Accounts, Bootstrap, Review (only with the approval stage
    enabled), Logging, Organization, SecurityAudit and Deploy; the Review
    stage is there if and only if [enableApprovalStage] is true. *)
Theorem canonical_stage_order library stg scope props a :
  constructor library stg scope props = Normal a →
  stageNames a =
    ["Source"; "Build"; "Prepare"; "Accounts"; "Bootstrap"] ++
    (if enableApprovalStage props then ["Review"] else []) ++
    ["Logging"; "Organization"; "SecurityAudit"; "Deploy"] ∧
  ("Review" ∈ stageNames a ↔ enableApprovalStage props = true).
Proof.
  intros Ha. completed Ha.
  destruct (enableApprovalStage props) eqn:Hflag; assemble Hflag.
  - split; [reflexivity|]. split; [reflexivity|]. intros _.
    apply list_elem_of_lookup. exists 5%nat. reflexivity.
  - split; [reflexivity|]. split; [|discriminate].
    change (stageNames _) with
      ["Source"; "Build"; "Prepare"; "Accounts"; "Bootstrap"; "Logging";
       "Organization"; "SecurityAudit"; "Deploy"].
    rewrite !elem_of_cons, elem_of_nil. intros H.
    repeat destruct H as [[=]|H]. destruct H.
Qed.

Lemma canonical_stage_order_witness :
  constructor sampleLibrary sampleStages sampleScope plainProps =
    Normal plainAssembly ∧
  stageNames plainAssembly =
    ["Source"; "Build"; "Prepare"; "Accounts"; "Bootstrap"] ++
    (if enableApprovalStage plainProps then ["Review"] else []) ++
    ["Logging"; "Organization"; "SecurityAudit"; "Deploy"] ∧
  ("Review" ∈ stageNames plainAssembly ↔ enableApprovalStage plainProps = true).
Proof.
  split; [exact plainAssembly_run|].
  apply (canonical_stage_order sampleLibrary sampleStages
           sampleScope plainProps plainAssembly).
  exact plainAssembly_run.
Defined.

(** ** The Deploy stage *)

(** C5: the Deploy stage of a completed assembly holds exactly five actions:
    Network_Prepare, Security and Operations with run order 1, Network_VPCs
    with run order 2 and Network_Associations with run order 3. *)
Theorem deploy_stage_run_orders library stg scope props a :
  constructor library stg scope props = Normal a →
  ∃ deploy, findStage "Deploy" a = Some deploy ∧
    nameAndOrder <$> actions deploy =
      [("Network_Prepare", Some 1); ("Security", Some 1);
       ("Operations", Some 1); ("Network_VPCs", Some 2);
       ("Network_Associations", Some 3)].
Proof.
  intros Ha. completed Ha.
  destruct (enableApprovalStage props) eqn:Hflag; assemble Hflag;
    (eexists; split; [reflexivity|]); reflexivity.
Qed.

Lemma deploy_stage_run_orders_witness :
  constructor sampleLibrary sampleStages sampleScope sampleProps =
    Normal sampleAssembly ∧
  ∃ deploy, findStage "Deploy" sampleAssembly = Some deploy ∧
    nameAndOrder <$> actions deploy =
      [("Network_Prepare", Some 1); ("Security", Some 1);
       ("Operations", Some 1); ("Network_VPCs", Some 2);
       ("Network_Associations", Some 3)].
Proof.
  split; [exact sampleAssembly_run|].
  apply (deploy_stage_run_orders sampleLibrary sampleStages
           sampleScope sampleProps sampleAssembly).
  exact sampleAssembly_run.
Defined.

(** ** Action names *)



(** ** The Review stage *)

(** C6: with the approval stage enabled, the Review stage of a completed
    assembly stands right after Bootstrap and right before Logging; its
    actions are exactly Diff, the toolkit action of the [diff] command with
    run order 1, and Approve, a manual approval with run order 2. *)
Theorem review_stage_when_approval_enabled library stg scope props a :
  enableApprovalStage props = true →
  constructor library stg scope props = Normal a →
  ∃ i review diff approve,
    stageNames a !! i = Some "Bootstrap" ∧
    Pipeline.stages (pipeline a) !! S i = Some review ∧
    stageNames a !! S (S i) = Some "Logging" ∧
    stageName review = "Review" ∧
    actions review = [CodeBuild_ diff; ManualApproval_ approve] ∧
    createToolkitStage (this_ a) (descriptor "Diff" "diff" None (Some 1)) =
      Normal diff ∧
    nameAndOrder (CodeBuild_ diff) = ("Diff", Some 1) ∧
    actionVariable "CDK_OPTIONS" diff = Some "diff" ∧
    nameAndOrder (ManualApproval_ approve) = ("Approve", Some 2).
Proof.
  intros Hflag Ha. completed Ha. assemble Hflag.
  exists 4%nat. do 3 eexists.
  split; [reflexivity|]. split; [reflexivity|]. split; [reflexivity|].
  split; [reflexivity|]. split; [reflexivity|]. split; [reflexivity|].
  split; [reflexivity|]. split; [|reflexivity].
  vm_compute. reflexivity.
Qed.

Lemma review_stage_when_approval_enabled_witness :
  constructor sampleLibrary sampleStages sampleScope sampleProps =
    Normal sampleAssembly ∧
  ∃ i review diff approve,
    stageNames sampleAssembly !! i = Some "Bootstrap" ∧
    Pipeline.stages (pipeline sampleAssembly) !! S i = Some review ∧
    stageNames sampleAssembly !! S (S i) = Some "Logging" ∧
    stageName review = "Review" ∧
    actions review = [CodeBuild_ diff; ManualApproval_ approve] ∧
    createToolkitStage (this_ sampleAssembly) (descriptor "Diff" "diff" None (Some 1)) =
      Normal diff ∧
    nameAndOrder (CodeBuild_ diff) = ("Diff", Some 1) ∧
    actionVariable "CDK_OPTIONS" diff = Some "diff" ∧
    nameAndOrder (ManualApproval_ approve) = ("Approve", Some 2).
Proof.
  split; [exact sampleAssembly_run|].
  apply (review_stage_when_approval_enabled sampleLibrary sampleStages
           sampleScope sampleProps sampleAssembly);
    [reflexivity | exact sampleAssembly_run].
Defined.

(** ** Artifacts of the toolkit actions *)

(** C7: an action built by [createToolkitStage] reads the build output as its
    input and the configuration artifact as its only extra input, and it
    declares no outputs; in a completed assembly these two artifacts are the
    ones named Build and Config. *)
Theorem toolkit_action_artifacts :
  (∀ this props,
     ∃ b, createToolkitStage this props = Normal b ∧
       CodeBuildAction.input b = buildOutput this ∧
       CodeBuildAction.extraInputs b = [configRepoArtifact this] ∧
       CodeBuildAction.outputs b = None) ∧
  (∀ library stg scope props a,
     constructor library stg scope props = Normal a →
     buildOutput (this_ a) = {| codepipeline.artifactName := "Build" |} ∧
     configRepoArtifact (this_ a) = {| codepipeline.artifactName := "Config" |}).
Proof.
  split.
  - intros this props. eexists. split; [apply createToolkitStage_Normal|].
    simpl. auto.
  - intros library stg scope props a Ha. completed Ha.
    destruct (enableApprovalStage props) eqn:Hflag; assemble Hflag;
      split; reflexivity.
Qed.

Lemma toolkit_action_artifacts_witness :
  constructor sampleLibrary sampleStages sampleScope sampleProps =
    Normal sampleAssembly ∧
  buildOutput (this_ sampleAssembly) = {| codepipeline.artifactName := "Build" |} ∧
  configRepoArtifact (this_ sampleAssembly) = {| codepipeline.artifactName := "Config" |}.
Proof.
  split; [exact sampleAssembly_run|].
  apply (proj2 toolkit_action_artifacts sampleLibrary sampleStages
           sampleScope sampleProps sampleAssembly).
  exact sampleAssembly_run.
Defined.

(** ** Source branches *)

(** Two runs that differ in the source branch only. *)
Lemma source_branch_only library stg scope props b :
  ensures (constructor library stg scope props) (λ a,
    ensures (constructor library stg scope (withSourceBranch b props))
            (λ a', a' = withSourceActionBranch b a)).
Proof.
  destruct (enableApprovalStage props) eqn:Hflag; assemble Hflag;
    cbv beta delta [constructor];
    change (enableApprovalStage (withSourceBranch b props))
      with (enableApprovalStage props);
    rewrite Hflag; repeat step; reflexivity.
Qed.

(** C10: the Source stage of a completed assembly holds the actions Source
    and Configuration; Source fetches the configured branch, Configuration
    fetches the branch main of the configuration repository. An assembly
    completed for another [sourceBranchName] differs in the branch of the
    Source action and in nothing else. *)
Theorem configuration_branch_is_main library stg scope props a :
  constructor library stg scope props = Normal a →
  (∃ source configuration,
     actions <$> findStage "Source" a =
       Some [Source_ source; Source_ configuration] ∧
     CodeCommitSourceAction.actionName source = "Source" ∧
     CodeCommitSourceAction.branch source = sourceBranchName props ∧
     CodeCommitSourceAction.actionName configuration = "Configuration" ∧
     CodeCommitSourceAction.repository configuration =
       ConfigRepository.getRepository (configRepository a) ∧
     CodeCommitSourceAction.branch configuration = "main") ∧
  ∀ b a', constructor library stg scope (withSourceBranch b props) = Normal a' →
          a' = withSourceActionBranch b a.
Proof.
  intros Ha. split.
  - completed Ha.
    destruct (enableApprovalStage props) eqn:Hflag; assemble Hflag;
      do 2 eexists; repeat split; reflexivity.
  - intros b a' Ha'.
    pose proof (ensures_elim _ _ a (source_branch_only library stg scope props b) Ha)
      as Hb.
    exact (ensures_elim _ _ a' Hb Ha').
Qed.

Lemma configuration_branch_is_main_witness :
  constructor sampleLibrary sampleStages sampleScope sampleProps =
    Normal sampleAssembly ∧
  (∃ source configuration,
     actions <$> findStage "Source" sampleAssembly =
       Some [Source_ source; Source_ configuration] ∧
     CodeCommitSourceAction.actionName source = "Source" ∧
     CodeCommitSourceAction.branch source = sourceBranchName sampleProps ∧
     CodeCommitSourceAction.actionName configuration = "Configuration" ∧
     CodeCommitSourceAction.repository configuration =
       ConfigRepository.getRepository (configRepository sampleAssembly) ∧
     CodeCommitSourceAction.branch configuration = "main") ∧
  ∀ b a', constructor sampleLibrary sampleStages sampleScope
            (withSourceBranch b sampleProps) = Normal a' →
          a' = withSourceActionBranch b sampleAssembly.
Proof.
  split; [exact sampleAssembly_run|].
  apply (configuration_branch_is_main sampleLibrary sampleStages
           sampleScope sampleProps sampleAssembly).
  exact sampleAssembly_run.
Defined.

(** The other branch of the sample: the assembly of the branch [hotfix] is
    the assembly of the branch [release] with the Source action moved. *)
Example hotfix_branch_assembly :
  constructor sampleLibrary sampleStages sampleScope
    (withSourceBranch "hotfix" sampleProps) =
  withSourceActionBranch "hotfix"
    <$> constructor sampleLibrary sampleStages sampleScope sampleProps.
Proof. vm_compute. reflexivity. Qed.

(** ** Command string and environment of a toolkit action *)

Lemma lookup_CDK_OPTIONS props :
  toolkitEnvironmentVariables props !! "CDK_OPTIONS" =
  Some (plaintext (cdkOptions props)).
Proof.
  unfold toolkitEnvironmentVariables. destruct (truthy _).
  - rewrite lookup_insert_ne by discriminate. apply lookup_singleton_eq.
  - apply lookup_singleton_eq.
Qed.

Lemma lookup_ACCELERATOR_STAGE props :
  toolkitEnvironmentVariables props !! "ACCELERATOR_STAGE" =
  if truthy (ToolkitStageProps.stage props)
  then Some (plaintext (nullish (ToolkitStageProps.stage props) ""))
  else None.
Proof.
  unfold toolkitEnvironmentVariables. destruct (truthy _).
  - apply lookup_insert_eq.
  - apply lookup_singleton_ne. discriminate.
Qed.

(** No other variable is attached. *)
Lemma toolkitEnvironmentVariables_dom props :
  dom (toolkitEnvironmentVariables props) ⊆ {[ "CDK_OPTIONS"; "ACCELERATOR_STAGE" ]}.
Proof.
  unfold toolkitEnvironmentVariables. destruct (truthy _).
  - rewrite dom_insert_L, dom_singleton_L. set_solver.
  - rewrite dom_singleton_L. set_solver.
Qed.

Lemma cdkOptions_bare props :
  ToolkitStageProps.command props = "bootstrap" ∨
  ToolkitStageProps.command props = "diff" →
  cdkOptions props = ToolkitStageProps.command props.
Proof. unfold cdkOptions. intros [-> | ->]; reflexivity. Qed.

Lemma cdkOptions_staged props :
  ToolkitStageProps.command props ≠ "bootstrap" →
  ToolkitStageProps.command props ≠ "diff" →
  cdkOptions props =
  ToolkitStageProps.command props +:+ " --stage " +:+
  template (ToolkitStageProps.stage props).
Proof.
  unfold cdkOptions, AcceleratorToolkitCommand.BOOTSTRAP,
    AcceleratorToolkitCommand.DIFF.
  intros Hb%String.eqb_neq Hd%String.eqb_neq. rewrite Hb, Hd. reflexivity.
Qed.

(** C4: the action of a descriptor always carries the command string under
    the key CDK_OPTIONS. For the verbs bootstrap and diff the command string
    is the verb; for the verb deploy it is "deploy --stage " followed by the
    stage tag (by the word undefined when there is no tag). The key
    ACCELERATOR_STAGE carries the stage tag unchanged exactly when a stage
    tag is supplied, that is, present and not empty. *)
Theorem toolkit_command_and_variables this props :
  ∃ b, createToolkitStage this props = Normal b ∧
    actionVariable "CDK_OPTIONS" b = Some (cdkOptions props) ∧
    (ToolkitStageProps.command props = "bootstrap" ∨
     ToolkitStageProps.command props = "diff" →
     actionVariable "CDK_OPTIONS" b = Some (ToolkitStageProps.command props)) ∧
    (ToolkitStageProps.command props = "deploy" →
     (∀ tag, ToolkitStageProps.stage props = Some tag →
        actionVariable "CDK_OPTIONS" b = Some ("deploy --stage " +:+ tag)) ∧
     (ToolkitStageProps.stage props = None →
        actionVariable "CDK_OPTIONS" b = Some "deploy --stage undefined")) ∧
    (∀ v, actionVariable "ACCELERATOR_STAGE" b = Some v ↔
          ToolkitStageProps.stage props = Some v ∧ v ≠ "").
Proof.
  eexists. split; [apply createToolkitStage_Normal|].
  unfold actionVariable. simpl.
  rewrite lookup_CDK_OPTIONS, lookup_ACCELERATOR_STAGE. simpl.
  split; [reflexivity|]. split; [|split].
  - intros Hverb. now rewrite cdkOptions_bare.
  - intros Hverb. rewrite cdkOptions_staged by (rewrite Hverb; discriminate).
    rewrite Hverb. split.
    + intros tag ->. reflexivity.
    + intros ->. reflexivity.
  - intros v. destruct (truthy _) eqn:Htag; simpl.
    + apply truthy_true in Htag as (tag & -> & Hne). simpl. split.
      * intros [= <-]. auto.
      * intros [[= <-] _]. reflexivity.
    + apply truthy_false in Htag as [-> | ->].
      * split; [discriminate | intros [[=] _]].
      * split; [discriminate | intros [[= <-] Hne]; now destruct Hne].
Qed.

Example prepare_action_variables :
  (λ b, (actionVariable "CDK_OPTIONS" b, actionVariable "ACCELERATOR_STAGE" b))
    <$> createToolkitStage sampleThis
          (descriptor "Prepare" "deploy" (Some "prepare") None) =
  Normal (Some "deploy --stage prepare", Some "prepare").
Proof. vm_compute. reflexivity. Qed.

Example bootstrap_action_variables :
  (λ b, (actionVariable "CDK_OPTIONS" b, actionVariable "ACCELERATOR_STAGE" b))
    <$> createToolkitStage sampleThis (descriptor "Bootstrap" "bootstrap" None None) =
  Normal (Some "bootstrap", None).
Proof. vm_compute. reflexivity. Qed.

(** ** A deploy descriptor without stage tag *)

(** C1, as the code has it: [createToolkitStage] does not check the
    descriptor. For the verb deploy with an absent or empty stage tag it
    completes, the command string is "deploy --stage undefined" (absent tag)
    or "deploy --stage " (empty tag), and ACCELERATOR_STAGE is not set. *)
Theorem deploy_without_stage_completes this props :
  ToolkitStageProps.command props = "deploy" →
  ToolkitStageProps.stage props = None ∨ ToolkitStageProps.stage props = Some "" →
  ∃ b, createToolkitStage this props = Normal b ∧
    actionVariable "CDK_OPTIONS" b =
      Some ("deploy --stage " +:+ template (ToolkitStageProps.stage props)) ∧
    actionVariable "ACCELERATOR_STAGE" b = None.
Proof.
  intros Hverb Htag. eexists. split; [apply createToolkitStage_Normal|].
  unfold actionVariable. simpl.
  rewrite lookup_CDK_OPTIONS, lookup_ACCELERATOR_STAGE.
  rewrite cdkOptions_staged by (rewrite Hverb; discriminate).
  rewrite Hverb. apply truthy_false in Htag as ->. split; reflexivity.
Qed.

Lemma deploy_without_stage_completes_witness :
  ∃ b, createToolkitStage sampleThis (descriptor "Prepare" "deploy" None None) =
       Normal b ∧
    actionVariable "CDK_OPTIONS" b = Some "deploy --stage undefined" ∧
    actionVariable "ACCELERATOR_STAGE" b = None.
Proof.
  apply (deploy_without_stage_completes sampleThis
           (descriptor "Prepare" "deploy" None None)).
  - reflexivity.
  - left. reflexivity.
Defined.

(** C1 as stated fails: the descriptor of verb deploy without stage tag is
    accepted, and the action carries the command "deploy --stage undefined". *)
Lemma deploy_without_stage_counterexample :
  let d := descriptor "Prepare" "deploy" None None in
  ToolkitStageProps.command d = "deploy" ∧
  ToolkitStageProps.stage d = None ∧
  ¬ fails (createToolkitStage sampleThis d) ∧
  actionVariable "CDK_OPTIONS" <$> createToolkitStage sampleThis d =
    Normal (Some "deploy --stage undefined").
Proof.
  split; [reflexivity|]. split; [reflexivity|]. split.
  - intros [e He]. discriminate He.
  - vm_compute. reflexivity.
Qed.

(** ** Management account id and role name *)

Lemma pipelineAccountEnvVariables_unpaired props :
  unpairedManagementAccount props → pipelineAccountEnvVariables props = None.
Proof.
  unfold pipelineAccountEnvVariables.
  intros [[_ ->] | [-> _]]; simpl; [|reflexivity].
  rewrite andb_false_r. reflexivity.
Qed.

(** The management account reaches the assembly through
    [pipelineAccountEnvVariables] only. *)
Lemma constructor_withoutManagementAccount library stg scope props :
  pipelineAccountEnvVariables props = None →
  constructor library stg scope (withoutManagementAccount props) =
  constructor library stg scope props.
Proof.
  intros Hnone. cbv beta delta [constructor]. rewrite Hnone.
  change (pipelineAccountEnvVariables (withoutManagementAccount props))
    with (@None (gmap string codebuild.BuildEnvironmentVariable)).
  reflexivity.
Qed.

(** C2, as the code has it: when exactly one of [managementAccountId] and
    [managementAccountRoleName] is supplied, the assembly behaves exactly
    like the assembly of the configuration with neither: the same result or
    the same error. *)
Theorem unpaired_management_account_ignored library stg scope props :
  unpairedManagementAccount props →
  constructor library stg scope props =
  constructor library stg scope (withoutManagementAccount props).
Proof.
  intros Hnone%pipelineAccountEnvVariables_unpaired.
  symmetry. apply constructor_withoutManagementAccount. exact Hnone.
Qed.

Lemma unpaired_management_account_ignored_witness :
  constructor sampleLibrary sampleStages sampleScope sampleProps =
  constructor sampleLibrary sampleStages sampleScope
    (withoutManagementAccount sampleProps).
Proof.
  apply (unpaired_management_account_ignored sampleLibrary sampleStages
           sampleScope sampleProps).
  left. split; [eexists; reflexivity | reflexivity].
Defined.

(** C2 as stated fails: with a management account id and no role name the
    assembly completes, and the toolkit project has no variable
    MANAGEMENT_ACCOUNT_ID. *)
Lemma management_pairing_counterexample :
  managementAccountId sampleProps = Some "111122223333" ∧
  managementAccountRoleName sampleProps = None ∧
  ¬ fails (constructor sampleLibrary sampleStages sampleScope sampleProps) ∧
  (λ a, toolkitEnvironment a !! "MANAGEMENT_ACCOUNT_ID")
    <$> constructor sampleLibrary sampleStages sampleScope sampleProps =
  Normal None.
Proof.
  split; [reflexivity|]. split; [reflexivity|].
  assert ((λ a, toolkitEnvironment a !! "MANAGEMENT_ACCOUNT_ID")
            <$> constructor sampleLibrary sampleStages sampleScope sampleProps =
          Normal None) as Hrun.
  { vm_compute. reflexivity. }
  split; [|exact Hrun].
  intros [e He]. rewrite He in Hrun. discriminate Hrun.
Qed.

(** With both supplied and not empty, the two variables are attached. *)
Lemma pipelineAccountEnvVariables_paired props id roleName :
  managementAccountId props = Some id → id ≠ "" →
  managementAccountRoleName props = Some roleName → roleName ≠ "" →
  pipelineAccountEnvVariables props =
  Some (<[ "MANAGEMENT_ACCOUNT_ID" := plaintext id ]>
        {[ "MANAGEMENT_ACCOUNT_ROLE_NAME" := plaintext roleName ]}).
Proof.
  intros Hid Hne Hrole Hne'. unfold pipelineAccountEnvVariables.
  rewrite Hid, Hrole. simpl.
  apply String.eqb_neq in Hne, Hne'. rewrite Hne, Hne'. reflexivity.
Qed.

(** * Further properties of the assembly *)

(** ** Artifact flow *)






(** ** Names derived from the qualifier *)

(** X2: with a qualifier that is not empty, every generated name of a
    completed assembly starts with the qualifier. *)
Theorem names_with_qualifier library stg scope props q a :
  qualifier props = Some q → q ≠ "" →
  constructor library stg scope props = Normal a →
  Pipeline.pipelineName (pipeline a) = q +:+ "-pipeline" ∧
  PipelineProject.projectName (buildProject a) = q +:+ "-build-project" ∧
  PipelineProject.projectName (toolkitProject (this_ a)) =
    q +:+ "-toolkit-project" ∧
  Bucket.s3BucketName (bucket a) =
    q +:+ "-pipeline-" +:+ account scope +:+ "-" +:+ region scope ∧
  Bucket.kmsAliasName (bucket a) = "alias/" +:+ q +:+ "/pipeline/s3" ∧
  ConfigRepository.repositoryName (configRepository a) = q +:+ "-config".
Proof.
  intros Hq Hne Ha. completed Ha.
  assert (truthy (qualifier props) = true) as Htruthy.
  { apply truthy_true. eauto. }
  cbv beta delta [constructor]. rewrite !Htruthy, !Hq.
  destruct (enableApprovalStage props) eqn:Hflag; assemble Hflag;
    repeat split; reflexivity.
Qed.

Lemma names_with_qualifier_witness :
  constructor sampleLibrary sampleStages otherScope qualifiedProps =
    Normal qualifiedAssembly ∧
  Pipeline.pipelineName (pipeline qualifiedAssembly) = "lza" +:+ "-pipeline" ∧
  PipelineProject.projectName (buildProject qualifiedAssembly) = "lza" +:+ "-build-project" ∧
  PipelineProject.projectName (toolkitProject (this_ qualifiedAssembly)) =
    "lza" +:+ "-toolkit-project" ∧
  Bucket.s3BucketName (bucket qualifiedAssembly) =
    "lza" +:+ "-pipeline-" +:+ account otherScope +:+ "-" +:+ region otherScope ∧
  Bucket.kmsAliasName (bucket qualifiedAssembly) = "alias/" +:+ "lza" +:+ "/pipeline/s3" ∧
  ConfigRepository.repositoryName (configRepository qualifiedAssembly) = "lza" +:+ "-config".
Proof.
  split; [exact qualifiedAssembly_run|].
  apply (names_with_qualifier sampleLibrary sampleStages
           otherScope qualifiedProps "lza" qualifiedAssembly);
    [reflexivity | discriminate | exact qualifiedAssembly_run].
Defined.

(** X3: without qualifier the pipeline and the projects of a completed
    assembly have the AWSAccelerator names, the bucket, its key alias and the
    configuration repository the aws-accelerator names. *)
Theorem names_without_qualifier library stg scope props a :
  qualifier props = None →
  constructor library stg scope props = Normal a →
  Pipeline.pipelineName (pipeline a) = "AWSAccelerator-Pipeline" ∧
  PipelineProject.projectName (buildProject a) = "AWSAccelerator-BuildProject" ∧
  PipelineProject.projectName (toolkitProject (this_ a)) =
    "AWSAccelerator-ToolkitProject" ∧
  Bucket.s3BucketName (bucket a) =
    "aws-accelerator-pipeline-" +:+ account scope +:+ "-" +:+ region scope ∧
  Bucket.kmsAliasName (bucket a) = "alias/aws-accelerator/pipeline/s3" ∧
  ConfigRepository.repositoryName (configRepository a) =
    "aws-accelerator-config".
Proof.
  intros Hq Ha. completed Ha.
  cbv beta delta [constructor]. rewrite !Hq.
  destruct (enableApprovalStage props) eqn:Hflag; assemble Hflag;
    repeat split; reflexivity.
Qed.

Lemma names_without_qualifier_witness :
  constructor sampleLibrary sampleStages sampleScope plainProps =
    Normal plainAssembly ∧
  Pipeline.pipelineName (pipeline plainAssembly) = "AWSAccelerator-Pipeline" ∧
  PipelineProject.projectName (buildProject plainAssembly) = "AWSAccelerator-BuildProject" ∧
  PipelineProject.projectName (toolkitProject (this_ plainAssembly)) =
    "AWSAccelerator-ToolkitProject" ∧
  Bucket.s3BucketName (bucket plainAssembly) =
    "aws-accelerator-pipeline-" +:+ account sampleScope +:+ "-" +:+
    region sampleScope ∧
  Bucket.kmsAliasName (bucket plainAssembly) = "alias/aws-accelerator/pipeline/s3" ∧
  ConfigRepository.repositoryName (configRepository plainAssembly) =
    "aws-accelerator-config".
Proof.
  split; [exact plainAssembly_run|].
  apply (names_without_qualifier sampleLibrary sampleStages
           sampleScope plainProps plainAssembly);
    [reflexivity | exact plainAssembly_run].
Defined.

(** ** Environment of the two projects *)

(** X5: the toolkit project of a completed assembly has
    MANAGEMENT_ACCOUNT_ID and MANAGEMENT_ACCOUNT_ROLE_NAME exactly when both
    the id and the role name are supplied and not empty, with the supplied
    values; it always keeps NODE_OPTIONS and CDK_NEW_BOOTSTRAP; the build
    project has NODE_OPTIONS only. *)
Theorem management_account_variables library stg scope props a :
  constructor library stg scope props = Normal a →
  (∀ v, toolkitEnvironment a !! "MANAGEMENT_ACCOUNT_ID" = Some v ↔
        ∃ id roleName,
          managementAccountId props = Some id ∧ id ≠ "" ∧
          managementAccountRoleName props = Some roleName ∧ roleName ≠ "" ∧
          v = plaintext id) ∧
  (∀ v, toolkitEnvironment a !! "MANAGEMENT_ACCOUNT_ROLE_NAME" = Some v ↔
        ∃ id roleName,
          managementAccountId props = Some id ∧ id ≠ "" ∧
          managementAccountRoleName props = Some roleName ∧ roleName ≠ "" ∧
          v = plaintext roleName) ∧
  toolkitEnvironment a !! "NODE_OPTIONS" = Some nodeOptions ∧
  toolkitEnvironment a !! "CDK_NEW_BOOTSTRAP" = Some (plaintext "1") ∧
  codebuild.environmentVariables (PipelineProject.environment (buildProject a)) =
    {[ "NODE_OPTIONS" := nodeOptions ]}.
Proof.
  intros Ha.
  assert (toolkitEnvironment a =
            spread (<[ "NODE_OPTIONS" := nodeOptions ]>
                    {[ "CDK_NEW_BOOTSTRAP" := plaintext "1" ]})
                   (pipelineAccountEnvVariables props) ∧
          codebuild.environmentVariables
            (PipelineProject.environment (buildProject a)) =
            {[ "NODE_OPTIONS" := nodeOptions ]}) as [Henv Hbuild].
  { completed Ha.
    destruct (enableApprovalStage props) eqn:Hflag; assemble Hflag;
      split; reflexivity. }
  rewrite Henv. clear Henv.
  destruct (truthy (managementAccountId props)
            && truthy (managementAccountRoleName props)) eqn:Hboth.
  - apply andb_true_iff in Hboth
      as [(id & Hid & Hne)%truthy_true (roleName & Hrole & Hne')%truthy_true].
    rewrite (pipelineAccountEnvVariables_paired props id roleName)
      by assumption.
    rewrite Hid, Hrole. unfold spread.
    split; [|split; [|split; [|split]]];
      [| |vm_compute; reflexivity|vm_compute; reflexivity|exact Hbuild].
    + change (_ !! "MANAGEMENT_ACCOUNT_ID") with (Some (plaintext id)).
      split.
      * intros [= <-]. eauto 10.
      * intros (? & ? & [= <-] & _ & _ & _ & ->). reflexivity.
    + change (_ !! "MANAGEMENT_ACCOUNT_ROLE_NAME")
        with (Some (plaintext roleName)).
      split.
      * intros [= <-]. eauto 10.
      * intros (? & ? & _ & _ & [= <-] & _ & ->). reflexivity.
  - assert (pipelineAccountEnvVariables props = None) as ->.
    { unfold pipelineAccountEnvVariables. rewrite Hboth. reflexivity. }
    assert (∀ id roleName,
              managementAccountId props = Some id → id ≠ "" →
              managementAccountRoleName props = Some roleName →
              roleName ≠ "" → False) as Hno.
    { intros id roleName Hid Hne%String.eqb_neq Hrole Hne'%String.eqb_neq.
      rewrite Hid, Hrole in Hboth. simpl in Hboth.
      rewrite Hne, Hne' in Hboth. discriminate. }
    unfold spread.
    split; [|split; [|split; [|split]]];
      [| |vm_compute; reflexivity|vm_compute; reflexivity|exact Hbuild].
    + change (_ !! "MANAGEMENT_ACCOUNT_ID")
        with (@None codebuild.BuildEnvironmentVariable).
      split; [discriminate|].
      intros (id & roleName & ? & ? & ? & ? & _). exfalso. eauto.
    + change (_ !! "MANAGEMENT_ACCOUNT_ROLE_NAME")
        with (@None codebuild.BuildEnvironmentVariable).
      split; [discriminate|].
      intros (id & roleName & ? & ? & ? & ? & _). exfalso. eauto.
Qed.

Lemma management_account_variables_witness :
  constructor sampleLibrary sampleStages otherScope qualifiedProps =
    Normal qualifiedAssembly ∧
  (∀ v, toolkitEnvironment qualifiedAssembly !! "MANAGEMENT_ACCOUNT_ID" = Some v ↔
        ∃ id roleName,
          managementAccountId qualifiedProps = Some id ∧ id ≠ "" ∧
          managementAccountRoleName qualifiedProps = Some roleName ∧
          roleName ≠ "" ∧ v = plaintext id) ∧
  (∀ v, toolkitEnvironment qualifiedAssembly !! "MANAGEMENT_ACCOUNT_ROLE_NAME" = Some v ↔
        ∃ id roleName,
          managementAccountId qualifiedProps = Some id ∧ id ≠ "" ∧
          managementAccountRoleName qualifiedProps = Some roleName ∧
          roleName ≠ "" ∧ v = plaintext roleName) ∧
  toolkitEnvironment qualifiedAssembly !! "NODE_OPTIONS" = Some nodeOptions ∧
  toolkitEnvironment qualifiedAssembly !! "CDK_NEW_BOOTSTRAP" = Some (plaintext "1") ∧
  codebuild.environmentVariables (PipelineProject.environment (buildProject qualifiedAssembly)) =
    {[ "NODE_OPTIONS" := nodeOptions ]}.
Proof.
  split; [exact qualifiedAssembly_run|].
  apply (management_account_variables sampleLibrary sampleStages
           otherScope qualifiedProps qualifiedAssembly).
  exact qualifiedAssembly_run.
Defined.

Example qualified_management_variables :
  (λ a, codebuild.value <$> toolkitEnvironment a !! "MANAGEMENT_ACCOUNT_ROLE_NAME")
    <$> constructor sampleLibrary sampleStages sampleScope qualifiedProps =
  Normal (Some "PipelineRole").
Proof. vm_compute. reflexivity. Qed.

(** ** What the configuration can change *)

(** X6: among completed assemblies the approval flag is the only input that
    shapes the outline of the pipeline. Two configurations with the same
    flag, whatever their repository, branch, qualifier and management
    account, and whatever the stacks, give the same stage names, action
    names, run orders and action environment variables when both assemblies
    complete. *)
Theorem outline_depends_on_approval_flag_only
  library stg scope1 scope2 props1 props2 a1 a2 :
  enableApprovalStage props1 = enableApprovalStage props2 →
  constructor library stg scope1 props1 = Normal a1 →
  constructor library stg scope2 props2 = Normal a2 →
  outline a1 = outline a2.
Proof.
  intros Hsame Ha1 Ha2.
  cut (ensures (constructor library stg scope1 props1) (λ a1,
         ensures (constructor library stg scope2 props2) (λ a2,
           outline a1 = outline a2))).
  { intros Hruns.
    exact (ensures_elim _ _ a2 (ensures_elim _ _ a1 Hruns Ha1) Ha2). }
  clear Ha1 Ha2.
  destruct (enableApprovalStage props2) eqn:Hflag2;
    assemble Hsame; rewrite Hflag2; repeat step; reflexivity.
Qed.

Lemma outline_depends_on_approval_flag_only_witness :
  constructor sampleLibrary sampleStages sampleScope sampleProps =
    Normal sampleAssembly ∧
  constructor sampleLibrary sampleStages otherScope qualifiedProps =
    Normal qualifiedAssembly ∧
  outline sampleAssembly = outline qualifiedAssembly.
Proof.
  split; [exact sampleAssembly_run|]. split; [exact qualifiedAssembly_run|].
  apply (outline_depends_on_approval_flag_only sampleLibrary sampleStages
           sampleScope otherScope sampleProps qualifiedProps);
    [reflexivity | exact sampleAssembly_run | exact qualifiedAssembly_run].
Defined.

(** ** Actions of the assembled pipeline *)

(** From a list of facts, one per element, to the mapped list. *)
Lemma fmap_by_elements {A B : Type} (f : A → B) (l : list A) (k : list B) :
  Forall2 (λ x y, f x = y) l k → f <$> l = k.
Proof.
  induction 1 as [|x y l k Hxy _ IH]; [reflexivity|].
  rewrite fmap_cons. congruence.
Qed.

(** A variable of a toolkit action is looked up in the variables of its
    descriptor. *)
Lemma variableOf_toolkit name b props :
  CodeBuildAction.environmentVariables b =
    Some (toolkitEnvironmentVariables props) →
  variableOf name (CodeBuild_ b) =
  codebuild.value <$> toolkitEnvironmentVariables props !! name.
Proof. unfold variableOf, actionVariable. intros ->. reflexivity. Qed.

Lemma stage_variable_of_tag props tag :
  ToolkitStageProps.stage props = Some tag → tag ≠ "" →
  codebuild.value <$> toolkitEnvironmentVariables props !! "ACCELERATOR_STAGE" =
  Some tag.
Proof.
  intros Htag Hne. rewrite lookup_ACCELERATOR_STAGE, Htag. simpl.
  apply String.eqb_neq in Hne. rewrite Hne. reflexivity.
Qed.

Lemma stage_variable_without_tag props :
  ToolkitStageProps.stage props = None →
  codebuild.value <$> toolkitEnvironmentVariables props !! "ACCELERATOR_STAGE" =
  None.
Proof. intros Htag. rewrite lookup_ACCELERATOR_STAGE, Htag. reflexivity. Qed.

(** When the stage variable is set, the command of a verb other than
    bootstrap and diff names the same stage. *)
Lemma stage_variable_in_command props tag :
  ToolkitStageProps.command props ≠ "bootstrap" →
  ToolkitStageProps.command props ≠ "diff" →
  codebuild.value <$> toolkitEnvironmentVariables props !! "ACCELERATOR_STAGE" =
    Some tag →
  codebuild.value <$> toolkitEnvironmentVariables props !! "CDK_OPTIONS" =
    Some (ToolkitStageProps.command props +:+ " --stage " +:+ tag).
Proof.
  intros Hb Hd. rewrite lookup_ACCELERATOR_STAGE, lookup_CDK_OPTIONS.
  rewrite cdkOptions_staged by assumption.
  destruct (truthy _) eqn:Htruthy; [|discriminate].
  apply truthy_true in Htruthy as (t & -> & _). simpl.
  intros [= <-]. reflexivity.
Qed.

Lemma command_of_descriptor props :
  codebuild.value <$> toolkitEnvironmentVariables props !! "CDK_OPTIONS" =
  Some (cdkOptions props).
Proof. rewrite lookup_CDK_OPTIONS. reflexivity. Qed.

(** Proves a fact about each action of an explicit list. *)
Ltac each_action tac :=
  repeat first [apply Forall_nil_2 | apply Forall_cons_2; [tac|]].

(** Proves one fact per element of an explicit list against a table. *)
Ltac each_row tac :=
  apply fmap_by_elements;
  repeat first [apply List.Forall2_nil | apply List.Forall2_cons; [tac|]].

(** X7: in a completed assembly the two variables of an action agree: an
    action whose ACCELERATOR_STAGE is a tag has the command
    "deploy --stage " followed by that tag. *)
Theorem stage_variable_matches_command library stg scope props a :
  constructor library stg scope props = Normal a →
  Forall (λ x, ∀ tag, variableOf "ACCELERATOR_STAGE" x = Some tag →
                variableOf "CDK_OPTIONS" x = Some ("deploy --stage " +:+ tag))
         (allActions a).
Proof.
  intros Ha. completed Ha.
  destruct (enableApprovalStage props) eqn:Hflag; assemble Hflag;
    each_action
      ltac:(intros tag;
            first
              [ discriminate
              | erewrite !variableOf_toolkit by reflexivity;
                first
                  [ rewrite stage_variable_without_tag by reflexivity;
                    discriminate
                  | apply stage_variable_in_command; discriminate ] ]).
Qed.

Lemma stage_variable_matches_command_witness :
  constructor sampleLibrary sampleStages sampleScope sampleProps =
    Normal sampleAssembly ∧
  Forall (λ x, ∀ tag, variableOf "ACCELERATOR_STAGE" x = Some tag →
                variableOf "CDK_OPTIONS" x = Some ("deploy --stage " +:+ tag))
         (allActions sampleAssembly).
Proof.
  split; [exact sampleAssembly_run|].
  apply (stage_variable_matches_command sampleLibrary sampleStages
           sampleScope sampleProps sampleAssembly).
  exact sampleAssembly_run.
Defined.

(** X8: the command of every action of a completed assembly. The source
    actions, the build and the approval have none; each deployment action
    deploys the stage of the enumeration that belongs to it; Bootstrap and
    Diff run the bare verb. *)
Theorem command_of_each_action library stg scope props a :
  constructor library stg scope props = Normal a →
  (λ x, (actionName x, variableOf "CDK_OPTIONS" x)) <$> allActions a =
    [("Source", None); ("Configuration", None); ("Build", None);
     ("Prepare", Some ("deploy --stage " +:+ PREPARE stg));
     ("Accounts", Some ("deploy --stage " +:+ ACCOUNTS stg));
     ("Bootstrap", Some "bootstrap")] ++
    (if enableApprovalStage props
     then [("Diff", Some "diff"); ("Approve", None)] else []) ++
    [("Logging", Some ("deploy --stage " +:+ LOGGING stg));
     ("Organizations", Some ("deploy --stage " +:+ ORGANIZATIONS stg));
     ("SecurityAudit", Some ("deploy --stage " +:+ SECURITY_AUDIT stg));
     ("Network_Prepare", Some ("deploy --stage " +:+ NETWORK_PREP stg));
     ("Security", Some ("deploy --stage " +:+ SECURITY stg));
     ("Operations", Some ("deploy --stage " +:+ OPERATIONS stg));
     ("Network_VPCs", Some ("deploy --stage " +:+ NETWORK_VPC stg));
     ("Network_Associations",
      Some ("deploy --stage " +:+ NETWORK_ASSOCIATIONS stg))].
Proof.
  intros Ha. completed Ha.
  destruct (enableApprovalStage props) eqn:Hflag; assemble Hflag;
    each_row
      ltac:(first
              [ reflexivity
              | f_equal; erewrite variableOf_toolkit by reflexivity;
                rewrite command_of_descriptor; reflexivity ]).
Qed.

Lemma command_of_each_action_witness :
  constructor sampleLibrary sampleStages sampleScope plainProps =
    Normal plainAssembly ∧
  (λ x, (actionName x, variableOf "CDK_OPTIONS" x)) <$> allActions plainAssembly =
    [("Source", None); ("Configuration", None); ("Build", None);
     ("Prepare", Some "deploy --stage prepare");
     ("Accounts", Some "deploy --stage accounts");
     ("Bootstrap", Some "bootstrap");
     ("Logging", Some "deploy --stage logging");
     ("Organizations", Some "deploy --stage organizations");
     ("SecurityAudit", Some "deploy --stage security-audit");
     ("Network_Prepare", Some "deploy --stage network-prep");
     ("Security", Some "deploy --stage security");
     ("Operations", Some "deploy --stage operations");
     ("Network_VPCs", Some "deploy --stage network-vpc");
     ("Network_Associations", Some "deploy --stage network-associations")].
Proof.
  split; [exact plainAssembly_run|].
  apply (command_of_each_action sampleLibrary sampleStages
           sampleScope plainProps plainAssembly).
  exact plainAssembly_run.
Defined.

(** X13: when no member of the stage enumeration is empty, every deployment
    action of a completed assembly has its stage in ACCELERATOR_STAGE; the
    source actions, the build, Bootstrap, Diff and the approval have no
    ACCELERATOR_STAGE. *)
Theorem stage_variable_of_each_action library stg scope props a :
  Forall (λ tag, tag ≠ "") (members stg) →
  constructor library stg scope props = Normal a →
  (λ x, (actionName x, variableOf "ACCELERATOR_STAGE" x)) <$> allActions a =
    [("Source", None); ("Configuration", None); ("Build", None);
     ("Prepare", Some (PREPARE stg));
     ("Accounts", Some (ACCOUNTS stg));
     ("Bootstrap", None)] ++
    (if enableApprovalStage props
     then [("Diff", None); ("Approve", None)] else []) ++
    [("Logging", Some (LOGGING stg));
     ("Organizations", Some (ORGANIZATIONS stg));
     ("SecurityAudit", Some (SECURITY_AUDIT stg));
     ("Network_Prepare", Some (NETWORK_PREP stg));
     ("Security", Some (SECURITY stg));
     ("Operations", Some (OPERATIONS stg));
     ("Network_VPCs", Some (NETWORK_VPC stg));
     ("Network_Associations", Some (NETWORK_ASSOCIATIONS stg))].
Proof.
  intros Hmembers Ha. unfold members in Hmembers.
  repeat match goal with
         | H : Forall _ (_ :: _) |- _ =>
             apply Forall_cons_1 in H as [? H]
         end.
  completed Ha.
  destruct (enableApprovalStage props) eqn:Hflag; assemble Hflag;
    each_row
      ltac:(first
              [ reflexivity
              | f_equal; erewrite variableOf_toolkit by reflexivity;
                first
                  [ apply stage_variable_without_tag; reflexivity
                  | apply stage_variable_of_tag; [reflexivity | assumption] ] ]).
Qed.

Lemma stage_variable_of_each_action_witness :
  constructor sampleLibrary sampleStages sampleScope plainProps =
    Normal plainAssembly ∧
  (λ x, (actionName x, variableOf "ACCELERATOR_STAGE" x)) <$> allActions plainAssembly =
    [("Source", None); ("Configuration", None); ("Build", None);
     ("Prepare", Some "prepare");
     ("Accounts", Some "accounts");
     ("Bootstrap", None);
     ("Logging", Some "logging");
     ("Organizations", Some "organizations");
     ("SecurityAudit", Some "security-audit");
     ("Network_Prepare", Some "network-prep");
     ("Security", Some "security");
     ("Operations", Some "operations");
     ("Network_VPCs", Some "network-vpc");
     ("Network_Associations", Some "network-associations")].
Proof.
  split; [exact plainAssembly_run|].
  apply (stage_variable_of_each_action sampleLibrary sampleStages
           sampleScope plainProps plainAssembly);
    [unfold members; simpl; repeat constructor; discriminate | exact plainAssembly_run].
Defined.

(** X12: in a completed assembly every CodeBuild action but Build runs in
    the one toolkit project, Build runs in the build project, and all of
    them act under the pipeline role. *)
Theorem projects_and_role_of_actions library stg scope props a :
  constructor library stg scope props = Normal a →
  Forall (λ x,
            match x with
            | CodeBuild_ b =>
                CodeBuildAction.role b = pipelineRole (this_ a) ∧
                CodeBuildAction.project b =
                  (if String.eqb (CodeBuildAction.actionName b) "Build"
                   then buildProject a
                   else toolkitProject (this_ a))
            | _ => True
            end)
         (allActions a) ∧
  Pipeline.role (pipeline a) = pipelineRole (this_ a).
Proof.
  intros Ha. completed Ha.
  destruct (enableApprovalStage props) eqn:Hflag; assemble Hflag;
    (split; [|reflexivity]);
    each_action ltac:(first [exact I | split; reflexivity]).
Qed.

Lemma projects_and_role_of_actions_witness :
  constructor sampleLibrary sampleStages sampleScope sampleProps =
    Normal sampleAssembly ∧
  Forall (λ x,
            match x with
            | CodeBuild_ b =>
                CodeBuildAction.role b = pipelineRole (this_ sampleAssembly) ∧
                CodeBuildAction.project b =
                  (if String.eqb (CodeBuildAction.actionName b) "Build"
                   then buildProject sampleAssembly
                   else toolkitProject (this_ sampleAssembly))
            | _ => True
            end)
         (allActions sampleAssembly) ∧
  Pipeline.role (pipeline sampleAssembly) = pipelineRole (this_ sampleAssembly).
Proof.
  split; [exact sampleAssembly_run|].
  apply (projects_and_role_of_actions sampleLibrary sampleStages
           sampleScope sampleProps sampleAssembly).
  exact sampleAssembly_run.
Defined.

(** X11: no source action starts the pipeline: every CodeCommit action of a
    completed assembly has the trigger NONE. *)
Theorem source_actions_never_trigger library stg scope props a :
  constructor library stg scope props = Normal a →
  Forall (λ x,
            match x with
            | Source_ s => CodeCommitSourceAction.trigger s = NONE
            | _ => True
            end)
         (allActions a).
Proof.
  intros Ha. completed Ha.
  destruct (enableApprovalStage props) eqn:Hflag; assemble Hflag;
    each_action ltac:(first [exact I | reflexivity]).
Qed.

Lemma source_actions_never_trigger_witness :
  constructor sampleLibrary sampleStages sampleScope sampleProps =
    Normal sampleAssembly ∧
  Forall (λ x,
            match x with
            | Source_ s => CodeCommitSourceAction.trigger s = NONE
            | _ => True
            end)
         (allActions sampleAssembly).
Proof.
  split; [exact sampleAssembly_run|].
  apply (source_actions_never_trigger sampleLibrary sampleStages
           sampleScope sampleProps sampleAssembly).
  exact sampleAssembly_run.
Defined.

(** X4: a completed pipeline waits for a person exactly when the approval
    stage is enabled: it holds a manual approval action if and only if
    [enableApprovalStage] is true. *)
Theorem manual_approval_iff_enabled library stg scope props a :
  constructor library stg scope props = Normal a →
  existsb isManualApproval (allActions a) = enableApprovalStage props.
Proof.
  intros Ha. completed Ha.
  destruct (enableApprovalStage props) eqn:Hflag; assemble Hflag; reflexivity.
Qed.

Lemma manual_approval_iff_enabled_witness :
  constructor sampleLibrary sampleStages sampleScope sampleProps =
    Normal sampleAssembly ∧
  existsb isManualApproval (allActions sampleAssembly) = enableApprovalStage sampleProps.
Proof.
  split; [exact sampleAssembly_run|].
  apply (manual_approval_iff_enabled sampleLibrary sampleStages
           sampleScope sampleProps sampleAssembly).
  exact sampleAssembly_run.
Defined.

(** ** More on the command string and the variables of one action *)

Lemma append_eq_self (s t : string) : s +:+ t = s → t = "".
Proof.
  induction s as [|c s IH]; simpl.
  - auto.
  - intros [= H]. auto.
Qed.

(** X9: the command string is the bare verb for bootstrap and diff and for no
    other verb: the comparison is exact, and every other verb, whatever its
    case or spelling, gets the stage suffix. *)
Theorem bare_command_iff_bootstrap_or_diff this props :
  ∃ b, createToolkitStage this props = Normal b ∧
    (actionVariable "CDK_OPTIONS" b = Some (ToolkitStageProps.command props) ↔
     ToolkitStageProps.command props = "bootstrap" ∨
     ToolkitStageProps.command props = "diff") ∧
    (ToolkitStageProps.command props ≠ "bootstrap" →
     ToolkitStageProps.command props ≠ "diff" →
     actionVariable "CDK_OPTIONS" b =
       Some (ToolkitStageProps.command props +:+ " --stage " +:+
             template (ToolkitStageProps.stage props))).
Proof.
  eexists. split; [apply createToolkitStage_Normal|].
  unfold actionVariable. simpl. rewrite lookup_CDK_OPTIONS. simpl.
  split.
  - split.
    + intros [= Hbare].
      destruct (decide (ToolkitStageProps.command props = "bootstrap"))
        as [|Hb]; [now left|].
      destruct (decide (ToolkitStageProps.command props = "diff"))
        as [|Hd]; [now right|].
      rewrite cdkOptions_staged in Hbare by assumption.
      apply append_eq_self in Hbare. discriminate Hbare.
    + intros Hverb. now rewrite cdkOptions_bare.
  - intros Hb Hd. now rewrite cdkOptions_staged.
Qed.

Example capitalised_verb_gets_suffix :
  actionVariable "CDK_OPTIONS"
    <$> createToolkitStage sampleThis (descriptor "Bootstrap" "Bootstrap" None None) =
  Normal (Some "Bootstrap --stage undefined").
Proof. vm_compute. reflexivity. Qed.

(** X10: an action built by [createToolkitStage] passes no variable other
    than CDK_OPTIONS and ACCELERATOR_STAGE, and both are plain text: neither
    a parameter nor a secret is referenced. *)
Theorem toolkit_variables_are_two_plaintext this props :
  ∃ b env, createToolkitStage this props = Normal b ∧
    CodeBuildAction.environmentVariables b = Some env ∧
    ∀ name v, env !! name = Some v →
      (name = "CDK_OPTIONS" ∨ name = "ACCELERATOR_STAGE") ∧
      codebuild.type v = codebuild.PLAINTEXT.
Proof.
  do 2 eexists. split; [apply createToolkitStage_Normal|].
  split; [reflexivity|].
  intros name v Hv. split.
  - assert (name ∈ dom (toolkitEnvironmentVariables props)) as Hdom.
    { apply elem_of_dom. eauto. }
    apply toolkitEnvironmentVariables_dom in Hdom. set_solver.
  - unfold toolkitEnvironmentVariables in Hv.
    destruct (truthy _).
    + apply lookup_insert_Some in Hv as [[_ <-] | [_ Hv]]; [reflexivity|].
      apply lookup_singleton_Some in Hv as [_ <-]. reflexivity.
    + apply lookup_singleton_Some in Hv as [_ <-]. reflexivity.
Qed.
